(** * PyPass: the character-class registry of [password.py]

    A shallow embedding of [password.py] and the properties of its
    alphabet aggregation.  Python objects live in a store addressed by
    references, because the script shares its character-class instances
    between the module-level dictionary [char_classes] and the registry
    built in [main]. *)

From Stdlib Require Import String Ascii List Bool Arith Lia.
From stdpp Require Import base option list strings.

Import ListNotations.
Local Open Scope string_scope.

(** ** The constants of Python's [string] module *)

Module pystring.

Definition ascii_lowercase : string := "abcdefghijklmnopqrstuvwxyz".
Definition ascii_uppercase : string := "ABCDEFGHIJKLMNOPQRSTUVWXYZ".
Definition digits : string := "0123456789".

(** The double quote (code 34) is spliced in by its code. *)
Definition punctuation : string :=
  "!" +:+ String (ascii_of_nat 34) "#$%&'()*+,-./:;<=>?@[\]^_`{|}~".

End pystring.

(** [str.join]: the separator goes between consecutive items. *)
Definition join (sep : string) (items : list string) : string :=
  String.concat sep items.

Definition newline : string := String (ascii_of_nat 10) EmptyString.

(** ** Objects, store and the interpreter monad *)

Definition ref := nat.

(** The four concrete subclasses of the abstract base [CharClass]. *)
Inductive variant : Set := AlphaLower | AlphaUpper | NumberDigit | Symbol.

(** A [CharClass] instance: its dynamic class and the [_state] attribute. *)
Record instance : Set := Instance { class_of : variant; _state : bool }.

(** A [ClassMgr] instance holds the list [_char_classes] of references. *)
Inductive object : Set :=
| OCharClass (c : instance)
| OClassMgr (_char_classes : list ref).

Record world : Set := World { heap : list object; stdout : string }.

Inductive exn : Set := AttributeError | KeyError | IndexError | SystemExit.

Inductive result (A : Type) : Type :=
| Ok (a : A)
| Raise (e : exn).
Arguments Ok {A} a.
Arguments Raise {A} e.

Definition Py (A : Type) : Type := world -> result (A * world).

Definition ret {A} (a : A) : Py A := fun w => Ok (a, w).

Definition raise {A} (e : exn) : Py A := fun _ => Raise e.

Definition bind {A B} (c : Py A) (k : A -> Py B) : Py B :=
  fun w => match c w with
           | Ok (a, w') => k a w'
           | Raise e => Raise e
           end.

Notation "'let!' x ':=' c 'in' k" := (bind c (fun x => k))
  (at level 10, x pattern, c at level 100, k at level 200).

(** A [for] loop whose body is run for its effect. *)
Fixpoint for_each {A} (items : list A) (body : A -> Py unit) : Py unit :=
  match items with
  | [] => ret tt
  | x :: rest => let! _ := body x in for_each rest body
  end.

(** Object creation: the new object gets the next free reference. *)
Definition alloc (o : object) : Py ref :=
  fun w => Ok (length (heap w), World (heap w ++ [o]) (stdout w)).

(** Reading through a reference.  A reference to nothing cannot arise in
    Python; here it fails like an access to a missing attribute. *)
Definition load (r : ref) : Py object :=
  fun w => match heap w !! r with
           | Some o => Ok (o, w)
           | None => Raise AttributeError
           end.

(** Updating an object in place.  The script only updates objects it has
    just read, so the reference is always in range. *)
Definition store (r : ref) (o : object) : Py unit :=
  fun w => Ok (tt, World (<[r := o]> (heap w)) (stdout w)).

(** [print(s)] writes [s] and a newline to standard output. *)
Definition print (s : string) : Py unit :=
  fun w => Ok (tt, World (heap w) (stdout w +:+ s +:+ newline)).

(** ** [CharClass] and its subclasses *)

Module CharClass.

Definition default_state (v : variant) : bool :=
  match v with
  | AlphaLower => true
  | AlphaUpper => true
  | NumberDigit => true
  | Symbol => false
  end.

Definition get_chars (v : variant) : string :=
  match v with
  | AlphaLower => pystring.ascii_lowercase
  | AlphaUpper => pystring.ascii_uppercase
  | NumberDigit => pystring.digits
  | Symbol => pystring.punctuation
  end.

Definition name (v : variant) : string :=
  match v with
  | AlphaLower => "Lowercase Alphabetic"
  | AlphaUpper => "Uppercase Alphabetic"
  | NumberDigit => "Numerical Digits"
  | Symbol => "Symbols"
  end.

(** Attribute access on something that is not a [CharClass] instance
    raises [AttributeError]. *)
Definition self_instance (self : ref) : Py instance :=
  let! o := load self in
  match o with
  | OCharClass c => ret c
  | OClassMgr _ => raise AttributeError
  end.

(** The [state] property: getter and setter. *)
Definition state (self : ref) : Py bool :=
  let! c := self_instance self in ret (_state c).

Definition set_state (self : ref) (new_state : bool) : Py unit :=
  let! c := self_instance self in
  store self (OCharClass (Instance (class_of c) new_state)).

(** [__init__], reached through [AlphaLower()], [Symbol()], ...:
    [self.state = self.default_state()]. *)
Definition new (v : variant) : Py ref :=
  alloc (OCharClass (Instance v (default_state v))).

(** Method calls, dispatched on the dynamic class of [self]. *)
Definition call_get_chars (self : ref) : Py string :=
  let! c := self_instance self in ret (get_chars (class_of c)).

Definition call_name (self : ref) : Py string :=
  let! c := self_instance self in ret (name (class_of c)).

End CharClass.

(** ** [ClassMgr] *)

Module ClassMgr.

Definition self_char_classes (self : ref) : Py (list ref) :=
  let! o := load self in
  match o with
  | OClassMgr cs => ret cs
  | OCharClass _ => raise AttributeError
  end.

Definition new : Py ref := alloc (OClassMgr []).

Definition register (self : ref) (char_cls : ref) : Py unit :=
  let! cs := self_char_classes self in
  store self (OClassMgr (cs ++ [char_cls])).

(** The generator expression
    [char_cls.get_chars() for char_cls in self._char_classes if char_cls.state]. *)
Fixpoint enabled_chars (cs : list ref) : Py (list string) :=
  match cs with
  | [] => ret []
  | char_cls :: rest =>
      let! st := CharClass.state char_cls in
      if st then
        let! s := CharClass.call_get_chars char_cls in
        let! ss := enabled_chars rest in
        ret (s :: ss)
      else enabled_chars rest
  end.

Definition get_all_chars (self : ref) : Py string :=
  let! cs := self_char_classes self in
  let! parts := enabled_chars cs in
  ret (join EmptyString parts).

Definition default : Py ref :=
  let! default := new in
  let! c := CharClass.new AlphaLower in
  let! _ := register default c in
  let! c := CharClass.new AlphaUpper in
  let! _ := register default c in
  let! c := CharClass.new NumberDigit in
  let! _ := register default c in
  let! c := CharClass.new Symbol in
  let! _ := register default c in
  ret default.

End ClassMgr.

(** ** The script: [char_classes], [parser] and [main] *)

(** A [dict] with string keys; iteration follows insertion order. *)
Definition dict (V : Type) : Type := list (string * V).

Fixpoint getitem {V} (d : dict V) (key : string) : Py V :=
  match d with
  | [] => raise KeyError
  | (k, v) :: rest => if String.eqb k key then ret v else getitem rest key
  end.

(** The module-level dictionary: one instance of each class, created
    when the module is loaded. *)
Definition char_classes : Py (dict ref) :=
  let! lower := CharClass.new AlphaLower in
  let! upper := CharClass.new AlphaUpper in
  let! digit := CharClass.new NumberDigit in
  let! symbol := CharClass.new Symbol in
  ret [("lower", lower); ("upper", upper); ("digit", digit); ("symbol", symbol)].

(** The part of [argparse] the script relies on: optional arguments with
    [action='store_true'].  An argument is recognised when it is one of
    the option strings of an action; the resulting namespace lists the
    destinations in the order the arguments were added, each holding its
    default unless the flag was passed, in which case it holds [True].
    The other spellings [argparse] knows ([-h], unambiguous prefixes of
    a long option, short flags written together) are not part of this
    model: like an unknown argument they end the run in [SystemExit],
    and the properties below are stated for command lines made of the
    option strings themselves. *)
Module argparse.

Record Action : Set := mkAction {
  option_strings : list string;
  dest : string;
  default : bool;
  help : string
}.

Definition ArgumentParser : Set := list Action.

Definition add_argument (par : ArgumentParser) (a : Action) : ArgumentParser :=
  (par ++ [a])%list.

Definition passed (a : Action) (argv : list string) : bool :=
  existsb (fun tok => existsb (String.eqb tok) (option_strings a)) argv.

Definition recognised (par : ArgumentParser) (tok : string) : bool :=
  existsb (String.eqb tok) (flat_map option_strings par).

(** [vars(args)] of the parsed namespace. *)
Definition parse_args (par : ArgumentParser) (argv : list string) : Py (dict bool) :=
  if forallb (recognised par) argv
  then ret (map (fun a => (dest a, default a || passed a argv)) par)
  else raise SystemExit.

End argparse.

(** [char_cls[0]] of a key. *)
Definition first_char (s : string) : Py string :=
  match s with
  | EmptyString => raise IndexError
  | String c _ => ret (String c EmptyString)
  end.

Fixpoint parser_loop (d : dict ref) (keys : list string)
    (par : argparse.ArgumentParser) : Py argparse.ArgumentParser :=
  match keys with
  | [] => ret par
  | char_cls :: rest =>
      let! c0 := first_char char_cls in
      let short_id := "-" +:+ c0 in
      let long_id := "--" +:+ char_cls in
      let! obj := getitem d char_cls in
      let! st := CharClass.state obj in
      let! obj' := getitem d char_cls in
      let! nm := CharClass.call_name obj' in
      parser_loop d rest
        (argparse.add_argument par
           (argparse.mkAction [short_id; long_id] char_cls st
              ("Enable the Character Class: " +:+ nm +:+ ".")))
  end.

Definition parser (d : dict ref) : Py argparse.ArgumentParser :=
  parser_loop d (map fst d) [].

Definition main (d : dict ref) (argv : list string) : Py unit :=
  let! par := parser d in
  let! args := argparse.parse_args par argv in
  let! mgr := ClassMgr.new in
  let! _ := for_each args (fun '(name, state) =>
              if state : bool then
                let! c := getitem d name in ClassMgr.register mgr c
              else ret tt) in
  let! s := ClassMgr.get_all_chars mgr in
  print s.

(** Running the script: the module body, then [main()]. *)
Definition script (argv : list string) : Py unit :=
  let! d := char_classes in main d argv.

Definition initial : world := World [] EmptyString.

(** What a run leaves on standard output, when it ends normally. *)
Definition output (argv : list string) : option string :=
  match script argv initial with
  | Ok (_, w) => Some (stdout w)
  | Raise _ => None
  end.

(** The option strings the parser of the script ends up with. *)
Definition cli_flags : list string :=
  ["-l"; "--lower"; "-u"; "--upper"; "-d"; "--digit"; "-s"; "--symbol"].

(** ** Well-typed stores *)

Definition is_char_class (w : world) (r : ref) : bool :=
  match heap w !! r with
  | Some (OCharClass _) => true
  | _ => false
  end.

(** [mgr] is a [ClassMgr] all of whose registered items are [CharClass]
    instances. *)
Definition is_registry (w : world) (mgr : ref) : bool :=
  match heap w !! mgr with
  | Some (OClassMgr cs) => forallb (is_char_class w) cs
  | _ => false
  end.

(** No registered class is enabled. *)
Definition is_disabled (w : world) (r : ref) : bool :=
  match heap w !! r with
  | Some (OCharClass c) => negb (_state c)
  | _ => false
  end.

Definition none_enabled (w : world) (mgr : ref) : bool :=
  match heap w !! mgr with
  | Some (OClassMgr cs) => forallb (is_disabled w) cs
  | _ => false
  end.

Definition points_to (w : world) (r : ref) (c : instance) : Prop :=
  heap w !! r = Some (OCharClass c).

Definition chars_if_enabled (c : instance) : string :=
  if _state c then CharClass.get_chars (class_of c) else EmptyString.

(** ** Stores and runs the properties are stated on *)

(** The store once the module body has run, and the dictionary and
    parser the script then works with. *)
Definition module_objects : list object :=
  [OCharClass (Instance AlphaLower true);
   OCharClass (Instance AlphaUpper true);
   OCharClass (Instance NumberDigit true);
   OCharClass (Instance Symbol false)].

Definition module_dict : dict ref :=
  [("lower", 0); ("upper", 1); ("digit", 2); ("symbol", 3)].

Definition script_parser : argparse.ArgumentParser :=
  [argparse.mkAction ["-l"; "--lower"] "lower" true
     "Enable the Character Class: Lowercase Alphabetic.";
   argparse.mkAction ["-u"; "--upper"] "upper" true
     "Enable the Character Class: Uppercase Alphabetic.";
   argparse.mkAction ["-d"; "--digit"] "digit" true
     "Enable the Character Class: Numerical Digits.";
   argparse.mkAction ["-s"; "--symbol"] "symbol" false
     "Enable the Character Class: Symbols."].

Definition symbol_passed (argv : list string) : bool :=
  existsb (fun tok => existsb (String.eqb tok) ["-s"; "--symbol"]) argv.

Definition default_line : string :=
  pystring.ascii_lowercase +:+ pystring.ascii_uppercase +:+ pystring.digits.

(** Only the script's own flags on the command line, in any number and
    order. *)
Definition only_flags (argv : list string) : bool :=
  forallb (fun tok => existsb (String.eqb tok) cli_flags) argv.

(** What [ClassMgr.default] adds to a store whose next free reference
    is [n]: the manager, then the four classes it registers. *)
Definition default_objects (n : nat) (lower upper digit symbol : bool) : list object :=
  [OClassMgr [n + 1; n + 2; n + 3; n + 4];
   OCharClass (Instance AlphaLower lower);
   OCharClass (Instance AlphaUpper upper);
   OCharClass (Instance NumberDigit digit);
   OCharClass (Instance Symbol symbol)].

(** The default registry with the enabled flags of its classes then set
    through the [state] setter, in registration order. *)
Definition default_with (lower upper digit symbol : bool) : Py string :=
  let! mgr := ClassMgr.default in
  let! cs := ClassMgr.self_char_classes mgr in
  let! _ := for_each (combine cs [lower; upper; digit; symbol])
              (fun '(c, b) => CharClass.set_state c b) in
  ClassMgr.get_all_chars mgr.

(** A store with two disabled classes registered at reference 2 and an
    empty registry at reference 3. *)
Definition disabled_world : world :=
  World [OCharClass (Instance AlphaLower false);
         OCharClass (Instance Symbol false);
         OClassMgr [0; 1];
         OClassMgr []] EmptyString.

(** The default classes as the module creates them, registered in a
    manager at reference 4. *)
Definition sample_world : world :=
  World [OCharClass (Instance AlphaLower true);
         OCharClass (Instance AlphaUpper true);
         OCharClass (Instance NumberDigit true);
         OCharClass (Instance Symbol false);
         OClassMgr [2; 3; 0]] EmptyString.

(** ** Further vocabulary *)

(** [r] is an instance of class [v], whatever its state. *)
Definition has_class (w : world) (r : ref) (v : variant) : Prop :=
  exists st, heap w !! r = Some (OCharClass (Instance v st)).

(** [r] holds a [ClassMgr]. *)
Definition is_manager (w : world) (r : ref) : bool :=
  match heap w !! r with
  | Some (OClassMgr _) => true
  | _ => false
  end.

(** The objects of [char_classes] with their states set to the given
    values. *)
Definition module_objects_with (lower upper digit symbol : bool) : list object :=
  [OCharClass (Instance AlphaLower lower);
   OCharClass (Instance AlphaUpper upper);
   OCharClass (Instance NumberDigit digit);
   OCharClass (Instance Symbol symbol)].

(** The line made of the classes whose state holds, in dictionary order. *)
Definition line_of (lower upper digit symbol : bool) : string :=
  (if lower then pystring.ascii_lowercase else EmptyString)
  +:+ (if upper then pystring.ascii_uppercase else EmptyString)
  +:+ (if digit then pystring.digits else EmptyString)
  +:+ (if symbol then pystring.punctuation else EmptyString).

(** The script's module body followed by assignments to the [state] of
    the four instances of [char_classes], before [main()] runs. *)
Definition script_with (lower upper digit symbol : bool) (argv : list string) : Py unit :=
  let! d := char_classes in
  let! _ := for_each (combine (map snd d) [lower; upper; digit; symbol])
              (fun '(c, b) => CharClass.set_state c b) in
  main d argv.

(** The parser [parser()] builds when the instances of [char_classes]
    hold the given states. *)
Definition script_parser_with (lower upper digit symbol : bool) : argparse.ArgumentParser :=
  [argparse.mkAction ["-l"; "--lower"] "lower" lower
     "Enable the Character Class: Lowercase Alphabetic.";
   argparse.mkAction ["-u"; "--upper"] "upper" upper
     "Enable the Character Class: Uppercase Alphabetic.";
   argparse.mkAction ["-d"; "--digit"] "digit" digit
     "Enable the Character Class: Numerical Digits.";
   argparse.mkAction ["-s"; "--symbol"] "symbol" symbol
     "Enable the Character Class: Symbols."].

(** Two default registries, the classes of the first then switched off. *)
Definition two_defaults : Py (ref * ref * string * string) :=
  let! m1 := ClassMgr.default in
  let! m2 := ClassMgr.default in
  let! cs := ClassMgr.self_char_classes m1 in
  let! _ := for_each cs (fun c => CharClass.set_state c false) in
  let! a := ClassMgr.get_all_chars m1 in
  let! b := ClassMgr.get_all_chars m2 in
  ret (m1, m2, a, b).

(** * Properties *)

(** ** Strings *)

Lemma append_empty_r (s : string) : s +:+ EmptyString = s.
Proof.
  induction s as [|a s IH]; [reflexivity|].
  change (String a (s +:+ EmptyString) = String a s). now rewrite IH.
Qed.

Lemma append_assoc (s1 s2 s3 : string) :
  (s1 +:+ s2) +:+ s3 = s1 +:+ (s2 +:+ s3).
Proof.
  induction s1 as [|a s1 IH]; [reflexivity|].
  change (String a ((s1 +:+ s2) +:+ s3) = String a (s1 +:+ (s2 +:+ s3))).
  now rewrite IH.
Qed.

Lemma join_cons (s : string) (items : list string) :
  join EmptyString (s :: items) = s +:+ join EmptyString items.
Proof.
  unfold join. destruct items as [|t items].
  - symmetry. apply append_empty_r.
  - reflexivity.
Qed.

Lemma join_app (l1 l2 : list string) :
  join EmptyString (l1 ++ l2)%list = join EmptyString l1 +:+ join EmptyString l2.
Proof.
  induction l1 as [|s l1 IH].
  - reflexivity.
  - change ((s :: l1) ++ l2)%list with (s :: (l1 ++ l2))%list.
    now rewrite !join_cons, IH, append_assoc.
Qed.

(** ** The store operations *)

Section Store.

Variable w : world.

Lemma self_instance_points_to r c :
  points_to w r c -> CharClass.self_instance r w = Ok (c, w).
Proof.
  unfold points_to, CharClass.self_instance, bind, load.
  now intros ->.
Qed.

Lemma state_points_to r c :
  points_to w r c -> CharClass.state r w = Ok (_state c, w).
Proof.
  intros H. unfold CharClass.state, bind.
  now rewrite (self_instance_points_to _ _ H).
Qed.

Lemma call_get_chars_points_to r c :
  points_to w r c ->
  CharClass.call_get_chars r w = Ok (CharClass.get_chars (class_of c), w).
Proof.
  intros H. unfold CharClass.call_get_chars, bind.
  now rewrite (self_instance_points_to _ _ H).
Qed.

Lemma enabled_chars_typed cs insts :
  Forall2 (points_to w) cs insts ->
  ClassMgr.enabled_chars cs w =
    Ok (map (fun c => CharClass.get_chars (class_of c)) (List.filter _state insts), w).
Proof.
  induction 1 as [|r c cs insts Hr _ IH]; [reflexivity|].
  simpl. unfold bind at 1. rewrite (state_points_to _ _ Hr).
  destruct (_state c); [|exact IH].
  unfold bind. now rewrite (call_get_chars_points_to _ _ Hr), IH.
Qed.

Lemma self_char_classes_eq mgr cs :
  heap w !! mgr = Some (OClassMgr cs) ->
  ClassMgr.self_char_classes mgr w = Ok (cs, w).
Proof.
  unfold ClassMgr.self_char_classes, bind, load. now intros ->.
Qed.

Lemma get_all_chars_typed mgr cs insts :
  heap w !! mgr = Some (OClassMgr cs) ->
  Forall2 (points_to w) cs insts ->
  ClassMgr.get_all_chars mgr w =
    Ok (join EmptyString
          (map (fun c => CharClass.get_chars (class_of c)) (List.filter _state insts)), w).
Proof.
  intros Hm Hcs. unfold ClassMgr.get_all_chars, bind.
  now rewrite (self_char_classes_eq _ _ Hm), (enabled_chars_typed _ _ Hcs).
Qed.

Lemma register_eq mgr cs c :
  heap w !! mgr = Some (OClassMgr cs) ->
  ClassMgr.register mgr c w =
    Ok (tt, World (<[mgr := OClassMgr (cs ++ [c])]> (heap w)) (stdout w)).
Proof.
  intros Hm. unfold ClassMgr.register, bind.
  now rewrite (self_char_classes_eq _ _ Hm).
Qed.

Lemma is_char_class_points_to r :
  is_char_class w r = true -> exists c, points_to w r c.
Proof.
  unfold is_char_class, points_to.
  destruct (heap w !! r) as [[c|cs]|]; try discriminate. eauto.
Qed.

Lemma all_char_classes_typed cs :
  forallb (is_char_class w) cs = true ->
  exists insts, Forall2 (points_to w) cs insts.
Proof.
  induction cs as [|r cs IH]; simpl.
  - exists []. constructor.
  - intros [Hr Hcs]%andb_prop.
    destruct (is_char_class_points_to _ Hr) as [c Hc].
    destruct (IH Hcs) as [insts Hinsts].
    exists (c :: insts). now constructor.
Qed.

Lemma is_registry_typed mgr :
  is_registry w mgr = true ->
  exists cs insts,
    heap w !! mgr = Some (OClassMgr cs) /\ Forall2 (points_to w) cs insts.
Proof.
  unfold is_registry.
  destruct (heap w !! mgr) as [[c|cs]|]; try discriminate.
  intros [insts H]%all_char_classes_typed. eauto.
Qed.

End Store.

(** ** The registry *)

Lemma enabled_chars_disabled (w : world) (cs : list ref) :
  forallb (is_disabled w) cs = true ->
  ClassMgr.enabled_chars cs w = Ok ([], w).
Proof.
  induction cs as [|r cs IH]; [reflexivity|].
  simpl. intros [Hr Hcs]%andb_prop.
  unfold is_disabled in Hr.
  destruct (heap w !! r) as [[c|?]|] eqn:E; try discriminate.
  unfold bind at 1. rewrite (state_points_to w r c E).
  destruct (_state c); [discriminate | now apply IH].
Qed.

(** C7. A registry in which no class is enabled, the empty registry
    included, aggregates to the empty string: [get_all_chars] returns
    normally, with [''], and leaves the store as it was. *)
Theorem get_all_chars_none_enabled (w : world) (mgr : ref) :
  none_enabled w mgr = true ->
  ClassMgr.get_all_chars mgr w = Ok (EmptyString, w).
Proof.
  unfold none_enabled.
  destruct (heap w !! mgr) as [[c|cs]|] eqn:E; try discriminate.
  intros H. unfold ClassMgr.get_all_chars, bind.
  now rewrite (self_char_classes_eq w mgr cs E), (enabled_chars_disabled w cs H).
Qed.

Lemma get_all_chars_none_enabled_witness :
  ClassMgr.get_all_chars 2 disabled_world = Ok (EmptyString, disabled_world) /\
  ClassMgr.get_all_chars 3 disabled_world = Ok (EmptyString, disabled_world).
Proof.
  split; apply get_all_chars_none_enabled; reflexivity.
Defined.

(** C8. On a registry of character classes, two calls of
    [get_all_chars] in a row return the same string, and the call leaves
    the whole store (the registry's list and every [_state]) unchanged. *)
Theorem get_all_chars_twice (w : world) (mgr : ref) :
  is_registry w mgr = true ->
  exists s,
    ClassMgr.get_all_chars mgr w = Ok (s, w) /\
    (let! a := ClassMgr.get_all_chars mgr in
     let! b := ClassMgr.get_all_chars mgr in
     ret (a, b)) w = Ok ((s, s), w).
Proof.
  intros (cs & insts & Hm & Hcs)%is_registry_typed.
  pose proof (get_all_chars_typed w mgr cs insts Hm Hcs) as E.
  eexists. split; [exact E|].
  unfold bind. now rewrite E, E.
Qed.

Lemma get_all_chars_twice_witness :
  exists s,
    ClassMgr.get_all_chars 4 sample_world = Ok (s, sample_world) /\
    (let! a := ClassMgr.get_all_chars 4 in
     let! b := ClassMgr.get_all_chars 4 in
     ret (a, b)) sample_world = Ok ((s, s), sample_world).
Proof.
  apply get_all_chars_twice. reflexivity.
Defined.

Lemma get_chars_nodup (v : variant) :
  List.NoDup (list_ascii_of_string (CharClass.get_chars v)).
Proof.
  apply NoDup_ListNoDup.
  destruct v; apply (bool_decide_unpack _); vm_compute; exact I.
Qed.

(** C9. For each of the four classes, [get_chars] returns one fixed
    string: it is not empty, no character occurs in it twice, two calls
    in a row return it both times and leave the store alone, and it is
    returned just the same after the enabled flag has been flipped. *)
Theorem get_chars_fixed (w : world) (self : ref) (v : variant) (st : bool) :
  heap w !! self = Some (OCharClass (Instance v st)) ->
  (let! a := CharClass.call_get_chars self in
   let! b := CharClass.call_get_chars self in
   ret (a, b)) w = Ok ((CharClass.get_chars v, CharClass.get_chars v), w) /\
  (exists w',
     (let! _ := CharClass.set_state self (negb st) in
      CharClass.call_get_chars self) w = Ok (CharClass.get_chars v, w')) /\
  CharClass.get_chars v <> EmptyString /\
  List.NoDup (list_ascii_of_string (CharClass.get_chars v)).
Proof.
  intros H. repeat split.
  - unfold bind.
    now rewrite !(call_get_chars_points_to w self _ H).
  - eexists. unfold bind, CharClass.set_state, bind.
    rewrite (self_instance_points_to w self _ H). unfold store. simpl.
    rewrite (call_get_chars_points_to _ self (Instance v (negb st))).
    + reflexivity.
    + unfold points_to. simpl. apply list_lookup_insert_eq.
      now apply lookup_lt_Some in H.
  - destruct v; discriminate.
  - apply get_chars_nodup.
Qed.

Lemma get_chars_fixed_witness :
  (let! a := CharClass.call_get_chars 3 in
   let! b := CharClass.call_get_chars 3 in
   ret (a, b)) sample_world =
    Ok ((pystring.punctuation, pystring.punctuation), sample_world) /\
  (exists w',
     (let! _ := CharClass.set_state 3 (negb false) in
      CharClass.call_get_chars 3) sample_world = Ok (pystring.punctuation, w')) /\
  pystring.punctuation <> EmptyString /\
  List.NoDup (list_ascii_of_string pystring.punctuation).
Proof.
  apply (get_chars_fixed sample_world 3 Symbol false). reflexivity.
Defined.

Lemma points_to_store (w : world) (mgr r : ref) (cs : list ref) (o : object)
    (c : instance) :
  heap w !! mgr = Some (OClassMgr cs) ->
  points_to w r c ->
  points_to (World (<[mgr := o]> (heap w)) (stdout w)) r c.
Proof.
  unfold points_to. simpl. intros Hm Hr.
  rewrite list_lookup_insert_ne; [exact Hr|].
  intros ->. congruence.
Qed.

Lemma register_typed (w : world) (mgr c : ref) (cs : list ref)
    (insts : list instance) (ci : instance) :
  heap w !! mgr = Some (OClassMgr cs) ->
  Forall2 (points_to w) cs insts ->
  points_to w c ci ->
  exists w',
    ClassMgr.register mgr c w = Ok (tt, w') /\
    heap w' !! mgr = Some (OClassMgr (cs ++ [c])) /\
    Forall2 (points_to w') (cs ++ [c]) (insts ++ [ci]) /\
    points_to w' c ci.
Proof.
  intros Hm Hcs Hc. eexists. split; [apply (register_eq w mgr cs c Hm)|].
  split; [|split].
  - simpl. apply list_lookup_insert_eq. now apply lookup_lt_Some in Hm.
  - apply Forall2_app.
    + eapply Forall2_impl; [exact Hcs|].
      intros r x Hr. now apply (points_to_store w mgr r cs).
    + constructor; [|constructor]. now apply (points_to_store w mgr c cs).
  - now apply (points_to_store w mgr c cs).
Qed.

Lemma join_enabled_snoc (insts : list instance) (ci : instance) :
  join EmptyString
    (map (fun c => CharClass.get_chars (class_of c))
       (List.filter _state (insts ++ [ci]))) =
  join EmptyString
    (map (fun c => CharClass.get_chars (class_of c)) (List.filter _state insts))
  +:+ chars_if_enabled ci.
Proof.
  rewrite List.filter_app, List.map_app, join_app. f_equal.
  unfold chars_if_enabled. simpl. now destruct (_state ci).
Qed.

(** C10. Registering a class appends to the aggregate: after
    [r.register(c)] the aggregate is the one before followed by
    [c.get_chars()] when [c.state] holds and by nothing otherwise.
    There is no deduplication: registering an enabled class twice puts
    its characters into the aggregate twice. *)
Theorem register_appends (w : world) (mgr c : ref) (ci : instance) :
  is_registry w mgr = true ->
  heap w !! c = Some (OCharClass ci) ->
  exists s,
    ClassMgr.get_all_chars mgr w = Ok (s, w) /\
    (exists w1,
       (let! _ := ClassMgr.register mgr c in
        ClassMgr.get_all_chars mgr) w =
         Ok (s +:+ (if _state ci then CharClass.get_chars (class_of ci)
                    else EmptyString), w1)) /\
    (_state ci = true ->
     exists w2,
       (let! _ := ClassMgr.register mgr c in
        let! _ := ClassMgr.register mgr c in
        ClassMgr.get_all_chars mgr) w =
         Ok (s +:+ CharClass.get_chars (class_of ci)
               +:+ CharClass.get_chars (class_of ci), w2)).
Proof.
  intros (cs & insts & Hm & Hcs)%is_registry_typed Hc.
  destruct (register_typed w mgr c cs insts ci Hm Hcs Hc)
    as (w1 & E1 & Hm1 & Hcs1 & Hc1).
  destruct (register_typed w1 mgr c _ _ ci Hm1 Hcs1 Hc1)
    as (w2 & E2 & Hm2 & Hcs2 & _).
  eexists. split; [apply (get_all_chars_typed w mgr cs insts Hm Hcs)|]. split.
  - exists w1. unfold bind at 1. rewrite E1.
    rewrite (get_all_chars_typed w1 mgr _ _ Hm1 Hcs1).
    now rewrite join_enabled_snoc.
  - intros Hst. exists w2. unfold bind at 1. rewrite E1.
    unfold bind at 1. rewrite E2.
    rewrite (get_all_chars_typed w2 mgr _ _ Hm2 Hcs2).
    rewrite !join_enabled_snoc. unfold chars_if_enabled. rewrite Hst.
    now rewrite append_assoc.
Qed.

Lemma register_appends_witness :
  exists s,
    ClassMgr.get_all_chars 4 sample_world = Ok (s, sample_world) /\
    (exists w1,
       (let! _ := ClassMgr.register 4 2 in
        ClassMgr.get_all_chars 4) sample_world =
         Ok (s +:+ pystring.digits, w1)) /\
    (true = true ->
     exists w2,
       (let! _ := ClassMgr.register 4 2 in
        let! _ := ClassMgr.register 4 2 in
        ClassMgr.get_all_chars 4) sample_world =
         Ok (s +:+ pystring.digits +:+ pystring.digits, w2)).
Proof.
  apply (register_appends sample_world 4 2 (Instance NumberDigit true));
    reflexivity.
Defined.

(** ** The default registry *)

(** The store operations on a store written [h ++ l], at references
    counted from the end of [h]. *)
Section Relative.

Variables (h l : list object) (out : string).

Lemma alloc_rel (o : object) :
  alloc o (World (h ++ l) out) =
    Ok (length h + length l, World (h ++ (l ++ [o])) out).
Proof.
  unfold alloc. simpl. now rewrite length_app, <- (assoc_L (++)).
Qed.

Lemma lookup_rel (k : nat) : (h ++ l)%list !! (length h + k) = l !! k.
Proof.
  rewrite lookup_app_r by lia.
  now replace (length h + k - length h) with k by lia.
Qed.

Lemma load_rel (k : nat) :
  load (length h + k) (World (h ++ l) out) =
    match l !! k with
    | Some o => Ok (o, World (h ++ l) out)
    | None => Raise AttributeError
    end.
Proof. unfold load. simpl. now rewrite lookup_rel. Qed.

Lemma store_rel (k : nat) (o : object) :
  store (length h + k) o (World (h ++ l) out) =
    Ok (tt, World (h ++ <[k := o]> l) out).
Proof. unfold store. simpl. now rewrite insert_app_r. Qed.

End Relative.

Section DefaultRegistry.

#[local] Opaque alloc load store.

Ltac run_store :=
  repeat (first [rewrite alloc_rel | rewrite load_rel | rewrite store_rel];
          simpl).

Variables (h : list object) (out : string).

Lemma default_eq :
  ClassMgr.default (World h out) =
    Ok (length h,
        World (h ++ default_objects (length h) true true true false) out).
Proof.
  transitivity (ClassMgr.default (World (h ++ []) out));
    [now rewrite app_nil_r|].
  unfold ClassMgr.default, ClassMgr.new, CharClass.new, ClassMgr.register,
    ClassMgr.self_char_classes, bind.
  run_store. now rewrite Nat.add_0_r.
Qed.

Lemma set_states_eq (lower upper digit symbol b1 b2 b3 b4 : bool) :
  let n := length h in
  for_each (combine [n + 1; n + 2; n + 3; n + 4] [b1; b2; b3; b4])
    (fun '(c, b) => CharClass.set_state c b)
    (World (h ++ default_objects n lower upper digit symbol) out) =
  Ok (tt, World (h ++ default_objects n b1 b2 b3 b4) out).
Proof.
  simpl. unfold CharClass.set_state, CharClass.self_instance, bind.
  run_store. reflexivity.
Qed.

Lemma default_objects_registry (b1 b2 b3 b4 : bool) :
  let n := length h in
  let w := World (h ++ default_objects n b1 b2 b3 b4) out in
  heap w !! n = Some (OClassMgr [n + 1; n + 2; n + 3; n + 4]) /\
  Forall2 (points_to w) [n + 1; n + 2; n + 3; n + 4]
    [Instance AlphaLower b1; Instance AlphaUpper b2;
     Instance NumberDigit b3; Instance Symbol b4].
Proof.
  split.
  - simpl. now apply list_lookup_middle.
  - repeat constructor; unfold points_to; simpl; now rewrite lookup_rel.
Qed.

End DefaultRegistry.

#[local] Transparent alloc load store.

Lemma default_with_eq (w : world) (b1 b2 b3 b4 : bool) :
  exists w',
    default_with b1 b2 b3 b4 w =
      Ok ((if b1 then pystring.ascii_lowercase else EmptyString)
          +:+ (if b2 then pystring.ascii_uppercase else EmptyString)
          +:+ (if b3 then pystring.digits else EmptyString)
          +:+ (if b4 then pystring.punctuation else EmptyString), w').
Proof.
  destruct w as [h out]. eexists.
  destruct (default_objects_registry h out true true true false) as [Hm _].
  destruct (default_objects_registry h out b1 b2 b3 b4) as [Hm' Hcs'].
  unfold default_with, bind.
  rewrite default_eq, (self_char_classes_eq _ _ _ Hm), set_states_eq.
  rewrite (get_all_chars_typed _ _ _ _ Hm' Hcs').
  destruct b1, b2, b3, b4; reflexivity.
Qed.

(** C4. The default registry aggregates to the lowercase letters, then
    the uppercase letters, then the digits: 62 characters, none of them
    a punctuation character. *)
Theorem default_alphabet (w : world) :
  let alphabet :=
    pystring.ascii_lowercase +:+ pystring.ascii_uppercase +:+ pystring.digits in
  (exists w',
     (let! mgr := ClassMgr.default in ClassMgr.get_all_chars mgr) w =
       Ok (alphabet, w')) /\
  String.length alphabet = 62 /\
  Forall (fun ch => ~ In ch (list_ascii_of_string alphabet))
    (list_ascii_of_string pystring.punctuation).
Proof.
  intros alphabet. split; [|split].
  - destruct w as [h out]. eexists.
    destruct (default_objects_registry h out true true true false) as [Hm Hcs].
    unfold bind. rewrite default_eq.
    now rewrite (get_all_chars_typed _ _ _ _ Hm Hcs).
  - reflexivity.
  - apply (Forall_impl (fun ch => ch ∉ list_ascii_of_string alphabet)).
    + apply (bool_decide_unpack _). vm_compute. exact I.
    + intros ch Hch Hin. now apply Hch, list_elem_of_In.
Qed.

(** C5. With only the symbol class enabled in the default registry, the
    aggregate is exactly [string.punctuation], whose length is 32. *)
Theorem only_symbol_alphabet (w : world) :
  (exists w',
     default_with false false false true w = Ok (pystring.punctuation, w')) /\
  String.length pystring.punctuation = 32.
Proof.
  split; [|reflexivity].
  destruct (default_with_eq w false false false true) as [w' E].
  exists w'. exact E.
Qed.

(** C6. Whatever subset of the default registry is enabled, the
    aggregate lists the enabled classes in registration order: lower,
    then upper, then digit, then symbol. *)
Theorem default_order (w : world) (lower upper digit symbol : bool) :
  exists w',
    default_with lower upper digit symbol w =
      Ok ((if lower then CharClass.get_chars AlphaLower else EmptyString)
          +:+ (if upper then CharClass.get_chars AlphaUpper else EmptyString)
          +:+ (if digit then CharClass.get_chars NumberDigit else EmptyString)
          +:+ (if symbol then CharClass.get_chars Symbol else EmptyString), w').
Proof.
  destruct (default_with_eq w lower upper digit symbol) as [w' E].
  exists w'. exact E.
Qed.

(** ** The command line *)

Lemma char_classes_eq :
  char_classes initial = Ok (module_dict, World module_objects EmptyString).
Proof. reflexivity. Qed.

Lemma parser_eq :
  parser module_dict (World module_objects EmptyString) =
    Ok (script_parser, World module_objects EmptyString).
Proof. reflexivity. Qed.

Lemma parse_args_flags (argv : list string) (w : world) :
  only_flags argv = true ->
  argparse.parse_args script_parser argv w =
    Ok ([("lower", true); ("upper", true); ("digit", true);
         ("symbol", symbol_passed argv)], w).
Proof.
  intros H. unfold argparse.parse_args.
  change (forallb (argparse.recognised script_parser) argv)
    with (only_flags argv).
  now rewrite H.
Qed.

(** A run with flags only: the module-level instances are left as they
    were created, the manager holds the classes the namespace selects,
    and one line is printed. *)
Lemma script_flags (argv : list string) :
  only_flags argv = true ->
  script argv initial =
    Ok (tt, World (module_objects ++
                   [OClassMgr (if symbol_passed argv then [0; 1; 2; 3]
                               else [0; 1; 2])])
              (default_line +:+ newline)).
Proof.
  intros H. unfold script, bind. rewrite char_classes_eq.
  unfold main, bind. rewrite parser_eq, (parse_args_flags argv _ H).
  now destruct (symbol_passed argv).
Qed.

Lemma output_flags (argv : list string) :
  only_flags argv = true -> output argv = Some (default_line +:+ newline).
Proof.
  intros H. unfold output. now rewrite (script_flags argv H).
Qed.

Example output_no_flags : output [] = Some (default_line +:+ newline).
Proof. reflexivity. Qed.

Example output_all_flags :
  output ["-l"; "--upper"; "-d"; "-s"] = Some (default_line +:+ newline).
Proof. reflexivity. Qed.

Example output_unknown_argument : output ["-l"; "-x"] = None.
Proof. reflexivity. Qed.

(** C1. With [--symbol] passed and the other three classes disabled
    the claim asks for the line [string.punctuation].  The script does
    not print it: [main] registers the [Symbol] instance the flag
    selects but never sets its state, which is still [False], so the
    line printed is empty.  At the default states the same flag prints
    the lowercase letters, the uppercase letters and the digits, with no
    punctuation.  The punctuation line comes out only when the state of
    the [Symbol] instance was set to [True] before [main] runs. *)
Theorem symbol_flag_ignored :
  script_with false false false false ["--symbol"] initial =
    Ok (tt, World (module_objects_with false false false false
                     ++ [OClassMgr [3]]) newline) /\
  newline <> pystring.punctuation +:+ newline /\
  output ["--symbol"] =
    Some (pystring.ascii_lowercase +:+ pystring.ascii_uppercase
            +:+ pystring.digits +:+ newline) /\
  script_with false false false true ["--symbol"] initial =
    Ok (tt, World (module_objects_with false false false true
                     ++ [OClassMgr [3]])
              (pystring.punctuation +:+ newline)).
Proof.
  split; [reflexivity|]. split; [vm_compute; discriminate|].
  split; reflexivity.
Qed.

(** C2. Whatever flags are passed, the line printed contains the
    characters of every class that is enabled by default: the command
    line cannot switch such a class off. *)
Theorem default_classes_always_printed (argv : list string) :
  only_flags argv = true ->
  exists line,
    output argv = Some (line +:+ newline) /\
    forall v, CharClass.default_state v = true ->
      exists pre post, line = pre +:+ CharClass.get_chars v +:+ post.
Proof.
  intros H. exists default_line. split; [exact (output_flags argv H)|].
  intros [] Hv; try discriminate.
  - exists EmptyString, (pystring.ascii_uppercase +:+ pystring.digits).
    reflexivity.
  - exists pystring.ascii_lowercase, pystring.digits. reflexivity.
  - exists (pystring.ascii_lowercase +:+ pystring.ascii_uppercase), EmptyString.
    reflexivity.
Qed.

Lemma default_classes_always_printed_witness :
  exists line,
    output ["-s"; "--lower"] = Some (line +:+ newline) /\
    forall v, CharClass.default_state v = true ->
      exists pre post, line = pre +:+ CharClass.get_chars v +:+ post.
Proof.
  apply (default_classes_always_printed ["-s"; "--lower"]). reflexivity.
Defined.

(** C3. The flags have no influence on the output: any two command
    lines made of the four flags print the same line, the lowercase
    letters, the uppercase letters and the digits.  The instances of
    [char_classes] that [main] registers end the run in the state they
    were created with, and that state is what [get_all_chars] reads. *)
Theorem flags_have_no_influence (argv1 argv2 : list string) :
  only_flags argv1 = true ->
  only_flags argv2 = true ->
  output argv1 = output argv2 /\
  output argv1 =
    Some (pystring.ascii_lowercase +:+ pystring.ascii_uppercase
            +:+ pystring.digits +:+ newline) /\
  exists mgr out,
    script argv1 initial = Ok (tt, World (module_objects ++ [mgr]) out).
Proof.
  intros H1 H2. rewrite (output_flags argv1 H1), (output_flags argv2 H2).
  split; [reflexivity|]. split; [reflexivity|].
  rewrite (script_flags argv1 H1). eauto.
Qed.

Lemma flags_have_no_influence_witness :
  output ["--symbol"] = output ["-d"; "-u"; "-d"] /\
  output ["--symbol"] =
    Some (pystring.ascii_lowercase +:+ pystring.ascii_uppercase
            +:+ pystring.digits +:+ newline) /\
  exists mgr out,
    script ["--symbol"] initial = Ok (tt, World (module_objects ++ [mgr]) out).
Proof.
  apply (flags_have_no_influence ["--symbol"] ["-d"; "-u"; "-d"]); reflexivity.
Defined.

(** * Further properties *)

(** ** The [state] property and [__init__] *)

Lemma set_state_eq (w : world) (self : ref) (c : instance) (b : bool) :
  points_to w self c ->
  CharClass.set_state self b w =
    Ok (tt, World (<[self := OCharClass (Instance (class_of c) b)]> (heap w))
              (stdout w)).
Proof.
  intros H. unfold CharClass.set_state, bind.
  now rewrite (self_instance_points_to w self c H).
Qed.

Lemma points_to_set_state (w : world) (self : ref) (c : instance) (b : bool) :
  points_to w self c ->
  points_to (World (<[self := OCharClass (Instance (class_of c) b)]> (heap w))
               (stdout w)) self (Instance (class_of c) b).
Proof.
  intros H. unfold points_to. simpl. apply list_lookup_insert_eq.
  now apply lookup_lt_Some in H.
Qed.

(** X1. Writing the [state] property and reading it back: the getter
    returns the value just set; the class of the object (its characters
    and its name) is as before; no other object and nothing on standard
    output changes. *)
Theorem state_set_then_get (w : world) (self : ref) (c : instance) (b : bool) :
  heap w !! self = Some (OCharClass c) ->
  exists w',
    CharClass.set_state self b w = Ok (tt, w') /\
    CharClass.state self w' = Ok (b, w') /\
    CharClass.call_get_chars self w' =
      Ok (CharClass.get_chars (class_of c), w') /\
    CharClass.call_name self w' = Ok (CharClass.name (class_of c), w') /\
    (forall r : ref, r <> self -> heap w' !! r = heap w !! r) /\
    length (heap w') = length (heap w) /\
    stdout w' = stdout w.
Proof.
  intros H. eexists. split; [apply (set_state_eq w self c b H)|].
  pose proof (points_to_set_state w self c b H) as H'.
  repeat split.
  - now rewrite (state_points_to _ _ _ H').
  - now rewrite (call_get_chars_points_to _ _ _ H').
  - unfold CharClass.call_name, bind.
    now rewrite (self_instance_points_to _ _ _ H').
  - intros r Hr. simpl. now apply list_lookup_insert_ne.
  - simpl. apply length_insert.
Qed.

Lemma state_set_then_get_witness :
  exists w',
    CharClass.set_state 3 true sample_world = Ok (tt, w') /\
    CharClass.state 3 w' = Ok (true, w') /\
    CharClass.call_get_chars 3 w' = Ok (pystring.punctuation, w') /\
    CharClass.call_name 3 w' = Ok ("Symbols", w') /\
    (forall r : ref, r <> 3 -> heap w' !! r = heap sample_world !! r) /\
    length (heap w') = length (heap sample_world) /\
    stdout w' = stdout sample_world.
Proof.
  apply (state_set_then_get sample_world 3 (Instance Symbol false) true).
  reflexivity.
Defined.

(** X2. Assignments to [state] compose as assignments do: of two in a
    row the last one wins, and assigning the value the object already
    holds changes nothing at all. *)
Theorem state_set_twice (w : world) (self : ref) (c : instance) (b1 b2 : bool) :
  heap w !! self = Some (OCharClass c) ->
  (let! _ := CharClass.set_state self b1 in CharClass.set_state self b2) w =
    CharClass.set_state self b2 w /\
  CharClass.set_state self (_state c) w = Ok (tt, w).
Proof.
  intros H. split.
  - unfold bind at 1. rewrite (set_state_eq w self c b1 H).
    rewrite (set_state_eq _ self _ b2 (points_to_set_state w self c b1 H)).
    rewrite (set_state_eq w self c b2 H). simpl.
    now rewrite list_insert_insert_eq.
  - rewrite (set_state_eq w self c _ H).
    destruct w as [h out], c as [v st]. cbn [heap stdout class_of _state] in *.
    do 3 f_equal. now apply list_insert_id.
Qed.

Lemma state_set_twice_witness :
  (let! _ := CharClass.set_state 0 false in CharClass.set_state 0 true)
    sample_world = CharClass.set_state 0 true sample_world /\
  CharClass.set_state 0 true sample_world = Ok (tt, sample_world).
Proof.
  apply (state_set_twice sample_world 0 (Instance AlphaLower true) false true).
  reflexivity.
Defined.

(** X3. Creating an instance: the constructor returns a reference that
    was not in use, the new object reports the default state of its
    class and the characters of its class, every object that existed
    keeps its reference and its contents, and a second construction
    yields a different object. *)
Theorem new_instance (w : world) (v v2 : variant) :
  exists r w',
    CharClass.new v w = Ok (r, w') /\
    heap w !! r = None /\
    CharClass.state r w' = Ok (CharClass.default_state v, w') /\
    CharClass.call_get_chars r w' = Ok (CharClass.get_chars v, w') /\
    (forall (r0 : ref) o, heap w !! r0 = Some o -> heap w' !! r0 = Some o) /\
    stdout w' = stdout w /\
    exists r2 w2, CharClass.new v2 w' = Ok (r2, w2) /\ r2 <> r.
Proof.
  exists (length (heap w)). eexists. split; [reflexivity|].
  assert (points_to
            (World (heap w ++ [OCharClass (Instance v (CharClass.default_state v))])
               (stdout w))
            (length (heap w)) (Instance v (CharClass.default_state v))) as H.
  { unfold points_to. simpl. now apply list_lookup_middle. }
  repeat split.
  - now apply lookup_ge_None.
  - now rewrite (state_points_to _ _ _ H).
  - now rewrite (call_get_chars_points_to _ _ _ H).
  - intros r0 o Hr0. simpl. now apply lookup_app_l_Some.
  - eexists. eexists. split; [reflexivity|]. simpl.
    rewrite length_app. simpl. lia.
Qed.

(** ** The aggregate of an arbitrary registry *)

Lemma list_ascii_of_string_app (s1 s2 : string) :
  list_ascii_of_string (s1 +:+ s2) =
    (list_ascii_of_string s1 ++ list_ascii_of_string s2)%list.
Proof.
  induction s1 as [|a s1 IH]; [reflexivity|].
  change (a :: list_ascii_of_string (s1 +:+ s2) =
          a :: (list_ascii_of_string s1 ++ list_ascii_of_string s2)%list).
  now rewrite IH.
Qed.

Lemma join_enabled (insts : list instance) :
  join EmptyString
    (map (fun c => CharClass.get_chars (class_of c)) (List.filter _state insts)) =
  join EmptyString (map chars_if_enabled insts).
Proof.
  induction insts as [|c insts IH]; [reflexivity|].
  change (map chars_if_enabled (c :: insts))
    with (chars_if_enabled c :: map chars_if_enabled insts).
  rewrite join_cons, <- IH. unfold chars_if_enabled. simpl.
  destruct (_state c); [|reflexivity].
  change (map _ (c :: ?l)) with (CharClass.get_chars (class_of c) :: map (fun c0 => CharClass.get_chars (class_of c0)) l).
  apply join_cons.
Qed.

Lemma in_join (ch : ascii) (items : list string) :
  In ch (list_ascii_of_string (join EmptyString items)) <->
  exists s, In s items /\ In ch (list_ascii_of_string s).
Proof.
  induction items as [|s items IH].
  - simpl. split; [tauto | now intros (s & [] & _)].
  - rewrite join_cons, list_ascii_of_string_app, in_app_iff, IH. split.
    + intros [H | (t & Ht & H)]; [exists s | exists t]; simpl; tauto.
    + intros (t & [<- | Ht] & H); [now left | right; eauto].
Qed.

(** X4. What [get_all_chars] computes on any registry of character
    classes: the characters of each registered class if it is enabled
    and nothing if it is not, joined in registration order.  So a
    character is in the aggregate exactly when it belongs to a registered
    class that is enabled. *)
Theorem get_all_chars_registry (w : world) (mgr : ref) (cs : list ref)
    (insts : list instance) :
  heap w !! mgr = Some (OClassMgr cs) ->
  Forall2 (fun r c => heap w !! r = Some (OCharClass c)) cs insts ->
  exists s,
    ClassMgr.get_all_chars mgr w = Ok (s, w) /\
    s = join EmptyString
          (map (fun c => if _state c then CharClass.get_chars (class_of c)
                         else EmptyString) insts) /\
    forall ch,
      In ch (list_ascii_of_string s) <->
      exists c, In c insts /\ _state c = true /\
                In ch (list_ascii_of_string (CharClass.get_chars (class_of c))).
Proof.
  intros Hm Hcs. eexists. split; [apply (get_all_chars_typed w mgr cs insts Hm Hcs)|].
  split; [apply join_enabled|].
  intros ch. rewrite in_join. split.
  - intros (s & Hs & Hch). apply in_map_iff in Hs as (c & <- & Hc).
    apply filter_In in Hc as [Hc Hst]. eauto.
  - intros (c & Hc & Hst & Hch). eexists. split; [|exact Hch].
    apply in_map_iff. exists c. split; [reflexivity|]. now apply filter_In.
Qed.

Lemma get_all_chars_registry_witness :
  exists s,
    ClassMgr.get_all_chars 4 sample_world = Ok (s, sample_world) /\
    s = join EmptyString
          (map (fun c => if _state c then CharClass.get_chars (class_of c)
                         else EmptyString)
             [Instance NumberDigit true; Instance Symbol false;
              Instance AlphaLower true]) /\
    forall ch,
      In ch (list_ascii_of_string s) <->
      exists c, In c [Instance NumberDigit true; Instance Symbol false;
                      Instance AlphaLower true] /\ _state c = true /\
                In ch (list_ascii_of_string (CharClass.get_chars (class_of c))).
Proof.
  apply (get_all_chars_registry sample_world 4 [2; 3; 0]).
  - reflexivity.
  - repeat constructor.
Defined.

(** ** Items that are not character classes *)

Lemma state_outcome (w : world) (r : ref) :
  (exists c, points_to w r c) \/ CharClass.state r w = Raise AttributeError.
Proof.
  unfold points_to, CharClass.state, CharClass.self_instance, bind, load.
  destruct (heap w !! r) as [[c|cs]|]; eauto.
Qed.

Lemma enabled_chars_manager (w : world) (cs cs0 : list ref) (r : ref) :
  In r cs ->
  heap w !! r = Some (OClassMgr cs0) ->
  ClassMgr.enabled_chars cs w = Raise AttributeError.
Proof.
  intros Hin Hr. induction cs as [|r0 cs IH]; [destruct Hin|].
  simpl. unfold bind at 1.
  destruct (state_outcome w r0) as [[c Hc] | E]; [|now rewrite E].
  rewrite (state_points_to w r0 c Hc).
  assert (In r cs) as Hin'.
  { destruct Hin as [-> | H]; [|exact H].
    unfold points_to in Hc. congruence. }
  destruct (_state c); [|now apply IH].
  unfold bind. rewrite (call_get_chars_points_to w r0 c Hc).
  now rewrite (IH Hin').
Qed.

(** X5. [register] accepts any object.  Registering a [ClassMgr] (the
    registry itself included) succeeds, and it is the next
    [get_all_chars] that fails, with [AttributeError], even though the
    registry aggregated normally before. *)
Theorem register_manager_then_get_all_chars (w : world) (mgr r : ref) :
  is_registry w mgr = true ->
  is_manager w r = true ->
  (exists s, ClassMgr.get_all_chars mgr w = Ok (s, w)) /\
  (exists w', ClassMgr.register mgr r w = Ok (tt, w')) /\
  (let! _ := ClassMgr.register mgr r in ClassMgr.get_all_chars mgr) w =
    Raise AttributeError.
Proof.
  intros (cs & insts & Hm & Hcs)%is_registry_typed Hr.
  split; [eexists; apply (get_all_chars_typed w mgr cs insts Hm Hcs)|].
  pose proof (register_eq w mgr cs r Hm) as E.
  split; [eexists; exact E|].
  unfold bind at 1. rewrite E.
  set (w' := World _ _).
  assert (heap w' !! mgr = Some (OClassMgr (cs ++ [r]))) as Hm'.
  { simpl. apply list_lookup_insert_eq. now apply lookup_lt_Some in Hm. }
  assert (exists cs0, heap w' !! r = Some (OClassMgr cs0)) as [cs0 Hr'].
  { destruct (decide (r = mgr)) as [-> | Hne]; [eauto|].
    unfold is_manager in Hr.
    destruct (heap w !! r) as [[c|cs0]|] eqn:Er; try discriminate.
    exists cs0. simpl. rewrite list_lookup_insert_ne by congruence. exact Er. }
  unfold ClassMgr.get_all_chars, bind.
  rewrite (self_char_classes_eq w' mgr _ Hm').
  rewrite (enabled_chars_manager w' (cs ++ [r]) cs0 r); [reflexivity| |exact Hr'].
  apply in_app_iff. right. now left.
Qed.

Lemma register_manager_then_get_all_chars_witness :
  (exists s, ClassMgr.get_all_chars 4 sample_world = Ok (s, sample_world)) /\
  (exists w', ClassMgr.register 4 4 sample_world = Ok (tt, w')) /\
  (let! _ := ClassMgr.register 4 4 in ClassMgr.get_all_chars 4) sample_world =
    Raise AttributeError.
Proof.
  apply (register_manager_then_get_all_chars sample_world 4 4); reflexivity.
Defined.

(** ** Loops over the registry *)

Lemma for_each_cons {A} (x : A) (items : list A) (body : A -> Py unit)
    (w w1 : world) :
  body x w = Ok (tt, w1) ->
  for_each (x :: items) body w = for_each items body w1.
Proof. intros E. simpl. unfold bind. now rewrite E. Qed.

(** X6. Registering a sequence of items one after the other appends
    them to the registry in that order, behind what was registered
    before; no other object and nothing on standard output changes. *)
Theorem register_each (w : world) (mgr : ref) (cs rs : list ref) :
  heap w !! mgr = Some (OClassMgr cs) ->
  exists w',
    for_each rs (ClassMgr.register mgr) w = Ok (tt, w') /\
    ClassMgr.self_char_classes mgr w' = Ok ((cs ++ rs)%list, w') /\
    (forall r : ref, r <> mgr -> heap w' !! r = heap w !! r) /\
    length (heap w') = length (heap w) /\
    stdout w' = stdout w.
Proof.
  revert w cs. induction rs as [|r rs IH]; intros w cs Hm.
  - exists w. rewrite app_nil_r.
    repeat split. now apply self_char_classes_eq.
  - pose proof (register_eq w mgr cs r Hm) as E.
    set (w1 := World _ _) in E.
    assert (heap w1 !! mgr = Some (OClassMgr (cs ++ [r]))) as Hm1.
    { simpl. apply list_lookup_insert_eq. now apply lookup_lt_Some in Hm. }
    destruct (IH w1 _ Hm1) as (w' & Erun & Hget & Hframe & Hlen & Hout).
    exists w'. rewrite (for_each_cons r rs _ w w1 E).
    split; [exact Erun|].
    split; [now rewrite <- app_assoc in Hget|].
    split; [|split].
    + intros r0 Hr0. rewrite (Hframe r0 Hr0). simpl.
      now apply list_lookup_insert_ne.
    + rewrite Hlen. simpl. apply length_insert.
    + exact Hout.
Qed.

Lemma register_each_witness :
  exists w',
    for_each [1; 1; 3] (ClassMgr.register 4) sample_world = Ok (tt, w') /\
    ClassMgr.self_char_classes 4 w' = Ok ([2; 3; 0; 1; 1; 3], w') /\
    (forall r : ref, r <> 4 -> heap w' !! r = heap sample_world !! r) /\
    length (heap w') = length (heap sample_world) /\
    stdout w' = stdout sample_world.
Proof.
  apply (register_each sample_world 4 [2; 3; 0] [1; 1; 3]). reflexivity.
Defined.

Lemma has_class_set_state (w : world) (self r : ref) (c : instance)
    (v : variant) (b : bool) :
  points_to w self c ->
  has_class w r v ->
  has_class (World (<[self := OCharClass (Instance (class_of c) b)]> (heap w))
               (stdout w)) r v.
Proof.
  intros Hs [st Hr]. unfold has_class. simpl.
  destruct (decide (r = self)) as [-> | Hne].
  - exists b. rewrite list_lookup_insert_eq by now apply lookup_lt_Some in Hr.
    unfold points_to in Hs. rewrite Hs in Hr. now inversion Hr.
  - exists st. now rewrite list_lookup_insert_ne by congruence.
Qed.

(** Setting every item of [cs] to [b]: afterwards each of them holds
    [b], objects that already held [b] and the managers are as before. *)
Lemma set_each_state (b : bool) (cs : list ref) (vs : list variant) (w : world) :
  Forall2 (has_class w) cs vs ->
  exists w',
    for_each cs (fun c => CharClass.set_state c b) w = Ok (tt, w') /\
    Forall2 (points_to w') cs (map (fun v => Instance v b) vs) /\
    (forall r v, points_to w r (Instance v b) -> points_to w' r (Instance v b)) /\
    (forall (r : ref) l, heap w !! r = Some (OClassMgr l) ->
                 heap w' !! r = Some (OClassMgr l)) /\
    (forall r : ref, ~ In r cs -> heap w' !! r = heap w !! r).
Proof.
  intros H. revert w H. revert vs.
  induction cs as [|r cs IH]; intros vs w H.
  - inversion H; subst. exists w. repeat split; [constructor | tauto | tauto].
  - inversion H as [|r' v cs' vs' [st Hr] Hrest]; subst.
    pose proof (set_state_eq w r _ b Hr) as E.
    pose proof (points_to_set_state w r _ b Hr) as Hr1.
    set (w1 := World _ _) in E, Hr1. simpl in Hr1.
    assert (Forall2 (has_class w1) cs vs') as Hrest1.
    { eapply Forall2_impl; [exact Hrest|].
      intros r0 v0 H0. now apply (has_class_set_state w r r0 _ v0 b Hr). }
    destruct (IH vs' w1 Hrest1) as (w' & Erun & Hall & Hkeep & Hmgr & Hframe).
    exists w'. rewrite (for_each_cons r cs _ w w1 E).
    split; [exact Erun|]. split; [|split; [|split]].
    + constructor; [now apply Hkeep | exact Hall].
    + intros r0 v0 H0. apply Hkeep. unfold points_to in *. subst w1. simpl.
      destruct (decide (r0 = r)) as [-> | Hne].
      * rewrite H0 in Hr. inversion Hr; subst. exact Hr1.
      * now rewrite list_lookup_insert_ne by congruence.
    + intros r0 l H0. apply Hmgr. subst w1. simpl.
      rewrite list_lookup_insert_ne; [exact H0|].
      intros ->. congruence.
    + intros r0 Hr0. rewrite Hframe by (intros Hin; apply Hr0; now right).
      subst w1. simpl. apply list_lookup_insert_ne.
      intros ->. apply Hr0. now left.
Qed.

Lemma filter_same_state (b : bool) (vs : list variant) :
  List.filter _state (map (fun v => Instance v b) vs) =
    if b then map (fun v => Instance v true) vs else [].
Proof.
  induction vs as [|v vs IH]; [now destruct b|].
  simpl. rewrite IH. now destruct b.
Qed.

(** X7. Switching every registered class off, through the [state]
    setter of each registered item, empties the aggregate; switching
    every one on makes it the characters of all registered classes in
    registration order, a class registered twice appearing twice. *)
Theorem set_each_state_then_get_all_chars (w : world) (mgr : ref)
    (cs : list ref) (vs : list variant) (b : bool) :
  heap w !! mgr = Some (OClassMgr cs) ->
  Forall2 (has_class w) cs vs ->
  exists w',
    (let! _ := for_each cs (fun c => CharClass.set_state c b) in
     ClassMgr.get_all_chars mgr) w =
      Ok ((if b then join EmptyString (map CharClass.get_chars vs)
           else EmptyString), w').
Proof.
  intros Hm Hcs.
  destruct (set_each_state b cs vs w Hcs) as (w' & Erun & Hall & _ & Hmgr & _).
  exists w'. unfold bind at 1. rewrite Erun.
  rewrite (get_all_chars_typed w' mgr cs _ (Hmgr _ _ Hm) Hall).
  rewrite filter_same_state.
  destruct b; [now rewrite List.map_map | reflexivity].
Qed.

Lemma set_each_state_then_get_all_chars_witness :
  exists w',
    (let! _ := for_each [2; 3; 0] (fun c => CharClass.set_state c true) in
     ClassMgr.get_all_chars 4) sample_world =
      Ok (join EmptyString
            (map CharClass.get_chars [NumberDigit; Symbol; AlphaLower]), w').
Proof.
  apply (set_each_state_then_get_all_chars sample_world 4 [2; 3; 0]
           [NumberDigit; Symbol; AlphaLower] true).
  - reflexivity.
  - repeat constructor; eexists; reflexivity.
Defined.

(** ** [parser] and [main] on instances in any state *)

Lemma parser_with_eq (b1 b2 b3 b4 : bool) (rest : list object) (out : string) :
  parser module_dict (World (module_objects_with b1 b2 b3 b4 ++ rest) out) =
    Ok (script_parser_with b1 b2 b3 b4,
        World (module_objects_with b1 b2 b3 b4 ++ rest) out).
Proof. reflexivity. Qed.

(** X8. [parser()] reads the store and leaves it alone.  It declares one
    flag per key of [char_classes], in dictionary order: a dash and the
    first letter of the key, two dashes and the key, the key as
    destination, a help text with the name of the class, and as default
    the state the instance holds at that moment. *)
Theorem parser_defaults_follow_state (b1 b2 b3 b4 : bool)
    (rest : list object) (out : string) :
  exists par,
    parser module_dict (World (module_objects_with b1 b2 b3 b4 ++ rest) out) =
      Ok (par, World (module_objects_with b1 b2 b3 b4 ++ rest) out) /\
    map argparse.dest par = map fst module_dict /\
    map argparse.default par = [b1; b2; b3; b4] /\
    map argparse.option_strings par =
      [["-l"; "--lower"]; ["-u"; "--upper"]; ["-d"; "--digit"]; ["-s"; "--symbol"]] /\
    map argparse.help par =
      map (fun v => "Enable the Character Class: " +:+ CharClass.name v +:+ ".")
        [AlphaLower; AlphaUpper; NumberDigit; Symbol].
Proof.
  exists (script_parser_with b1 b2 b3 b4).
  split; [apply parser_with_eq|]. repeat split.
Qed.

Lemma set_module_states (b1 b2 b3 b4 : bool) :
  for_each (combine (map snd module_dict) [b1; b2; b3; b4])
    (fun '(c, b) => CharClass.set_state c b)
    (World module_objects EmptyString) =
  Ok (tt, World (module_objects_with b1 b2 b3 b4 ++ []) EmptyString).
Proof. reflexivity. Qed.

Lemma parse_args_with (b1 b2 b3 b4 : bool) (argv : list string) (w : world) :
  only_flags argv = true ->
  argparse.parse_args (script_parser_with b1 b2 b3 b4) argv w =
    Ok (map (fun a => (argparse.dest a,
                       argparse.default a || argparse.passed a argv))
          (script_parser_with b1 b2 b3 b4), w).
Proof.
  intros H. unfold argparse.parse_args.
  change (forallb (argparse.recognised (script_parser_with b1 b2 b3 b4)) argv)
    with (only_flags argv).
  now rewrite H.
Qed.

(** X9. [main] prints the classes whose instance in [char_classes] is
    enabled when it runs, in dictionary order, and nothing else: with
    the states of the four instances set to any values beforehand, the
    line is the same for every command line of flags.  The run leaves
    the four instances as they were and creates one object, the
    manager. *)
Theorem main_prints_enabled_instances (b1 b2 b3 b4 : bool) (argv : list string) :
  only_flags argv = true ->
  exists cs,
    script_with b1 b2 b3 b4 argv initial =
      Ok (tt, World (module_objects_with b1 b2 b3 b4 ++ [OClassMgr cs])
                (line_of b1 b2 b3 b4 +:+ newline)).
Proof.
  intros H. unfold script_with, bind. rewrite char_classes_eq.
  rewrite set_module_states.
  unfold main, bind. rewrite parser_with_eq, (parse_args_with _ _ _ _ argv _ H).
  unfold script_parser_with, map.
  destruct b1, b2, b3, b4; cbn [orb argparse.default argparse.dest];
    repeat match goal with
      | |- context [argparse.passed ?a argv] => destruct (argparse.passed a argv)
      end;
    eexists; reflexivity.
Qed.

Lemma main_prints_enabled_instances_witness :
  exists cs,
    script_with false true false true ["-l"; "--digit"] initial =
      Ok (tt, World (module_objects_with false true false true ++ [OClassMgr cs])
                (line_of false true false true +:+ newline)).
Proof.
  apply (main_prints_enabled_instances false true false true ["-l"; "--digit"]).
  reflexivity.
Defined.

(** ** Default registries do not share their classes *)

Lemma default_objects_lookup (h rest : list object) (b1 b2 b3 b4 : bool) (out : string) :
  let n := length h in
  let w := World (h ++ default_objects n b1 b2 b3 b4 ++ rest) out in
  heap w !! n = Some (OClassMgr [n + 1; n + 2; n + 3; n + 4]) /\
  Forall2 (points_to w) [n + 1; n + 2; n + 3; n + 4]
    [Instance AlphaLower b1; Instance AlphaUpper b2;
     Instance NumberDigit b3; Instance Symbol b4].
Proof.
  split.
  - simpl. now apply list_lookup_middle.
  - repeat constructor; unfold points_to; simpl; now rewrite lookup_rel.
Qed.

(** X10. Every call of [ClassMgr.default] builds a registry of its own,
    with new class instances: the two managers are different objects,
    and switching off every class of the first registry empties its
    aggregate while the second still aggregates to the lowercase
    letters, the uppercase letters and the digits. *)
Theorem default_registries_independent (w : world) :
  exists m1 m2 w',
    two_defaults w =
      Ok ((m1, m2, EmptyString,
           pystring.ascii_lowercase +:+ pystring.ascii_uppercase
             +:+ pystring.digits), w') /\
    m1 <> m2.
Proof.
  destruct w as [h out]. unfold two_defaults.
  unfold bind at 1. rewrite default_eq.
  unfold bind at 1. rewrite default_eq.
  set (n := length h). set (h1 := (h ++ default_objects n true true true false)%list).
  set (n1 := length h1).
  set (w2 := World _ out).
  destruct (default_objects_lookup h (default_objects n1 true true true false)
              true true true false out) as [Hm1 Hcs1].
  destruct (default_objects_lookup h1 [] true true true false out) as [Hm2 Hcs2].
  fold n in Hm1, Hcs1. fold n1 in Hm2, Hcs2.
  assert (w2 = World (h ++ default_objects n true true true false
                        ++ default_objects n1 true true true false) out) as E1.
  { unfold w2, h1. now rewrite <- app_assoc. }
  assert (w2 = World (h1 ++ default_objects n1 true true true false ++ []) out) as E2.
  { unfold w2. now rewrite app_nil_r. }
  rewrite <- E1 in Hm1, Hcs1. rewrite <- E2 in Hm2, Hcs2. clearbody w2.
  assert (n1 = n + 5) as En1.
  { unfold n1, h1. rewrite length_app. reflexivity. }
  unfold bind at 1. rewrite (self_char_classes_eq w2 n _ Hm1).
  assert (Forall2 (has_class w2) [n + 1; n + 2; n + 3; n + 4]
            [AlphaLower; AlphaUpper; NumberDigit; Symbol]) as Hcls.
  { inversion Hcs1 as [|? ? ? ? Ha Hcs1a]; subst.
    inversion Hcs1a as [|? ? ? ? Hb Hcs1b]; subst.
    inversion Hcs1b as [|? ? ? ? Hc Hcs1c]; subst.
    inversion Hcs1c as [|? ? ? ? Hd _]; subst.
    repeat constructor; eexists; eassumption. }
  destruct (set_each_state false _ _ w2 Hcls)
    as (w3 & Erun & Hall & _ & Hmgr & Hframe).
  unfold bind at 1. rewrite Erun.
  assert (Forall2 (points_to w3) [n1 + 1; n1 + 2; n1 + 3; n1 + 4]
            [Instance AlphaLower true; Instance AlphaUpper true;
             Instance NumberDigit true; Instance Symbol false]) as Hcs3.
  { inversion Hcs2 as [|? ? ? ? Ha Hcs2a]; subst.
    inversion Hcs2a as [|? ? ? ? Hb Hcs2b]; subst.
    inversion Hcs2b as [|? ? ? ? Hc Hcs2c]; subst.
    inversion Hcs2c as [|? ? ? ? Hd _]; subst.
    repeat constructor; unfold points_to in *;
      (rewrite Hframe; [assumption | simpl; lia]). }
  unfold bind at 1.
  rewrite (get_all_chars_typed w3 n _ _ (Hmgr _ _ Hm1) Hall).
  unfold bind at 1.
  rewrite (get_all_chars_typed w3 n1 _ _ (Hmgr _ _ Hm2) Hcs3).
  exists n, n1, w3. split; [reflexivity | lia].
Qed.

(** ** The alphabet of the default registry *)

(** X11. Whatever subset of the default registry is enabled, no
    character occurs twice in the aggregate (the four classes have no
    character in common), and its length is the sum of the sizes of the
    enabled classes: 26, 26, 10 and 32. *)
Theorem default_alphabet_no_repeats (w : world) (lower upper digit symbol : bool) :
  exists s w',
    default_with lower upper digit symbol w = Ok (s, w') /\
    List.NoDup (list_ascii_of_string s) /\
    String.length s =
      (if lower then 26 else 0) + (if upper then 26 else 0)
      + (if digit then 10 else 0) + (if symbol then 32 else 0).
Proof.
  destruct (default_with_eq w lower upper digit symbol) as [w' E].
  eexists. exists w'. split; [exact E|]. split.
  - apply NoDup_ListNoDup.
    destruct lower, upper, digit, symbol;
      apply (bool_decide_unpack _); vm_compute; exact I.
  - destruct lower, upper, digit, symbol; reflexivity.
Qed.
